(** * GrafanaLink and the smoke-test manifest

    A shallow embedding of [web/app/js/components/GrafanaLink.jsx] (the
    [render] method of the [GrafanaLink] React component) and of the
    smoke-test Kubernetes manifest, together with the properties the
    specification states about them.

    Strings are [string] (sequences of 8-bit characters).  The separator
    ["/"] is a single ASCII character, so splitting on it commutes with the
    encoding of any other character.  A JavaScript object used as a map (the
    props of a React element, the labels of a manifest) is a [gmap] keyed by
    strings; a JavaScript array read by index is a list read with [!!], which
    answers [None] where JavaScript answers [undefined]. *)

From Stdlib Require Import Ascii.
From stdpp Require Import base strings list gmap pretty.

(** ** JavaScript strings *)

Module JsString.

(** [s.includes(c)] for a one-character search string [c]. *)
Fixpoint includes (c : ascii) (s : string) : bool :=
  match s with
  | EmptyString => false
  | String a s' => if decide (a = c) then true else includes c s'
  end.

(** [s.split(c)] for a one-character separator [c]: the maximal runs of
    characters between occurrences of [c], in order, empty runs included.
    The result is never the empty array. *)
Fixpoint split (c : ascii) (s : string) : list string :=
  match s with
  | EmptyString => [EmptyString]
  | String a s' =>
      if decide (a = c) then EmptyString :: split c s'
      else match split c s' with
           | [] => [String a EmptyString]
           | seg :: segs => String a seg :: segs
           end
  end.

(** The conversion a template literal applies to an interpolated value
    that is either a string or [undefined]. *)
Definition to_string (v : option string) : string :=
  match v with
  | Some s => s
  | None => "undefined"
  end.

(** [s] occurs in [t] as a contiguous run of characters. *)
Definition substring_of (s t : string) : Prop :=
  ∃ pre post, t = pre +:+ s +:+ post.

(** The part of [s] before the first occurrence of [c] (all of [s] when
    there is none). *)
Fixpoint before (c : ascii) (s : string) : string :=
  match s with
  | EmptyString => EmptyString
  | String a s' => if decide (a = c) then EmptyString else String a (before c s')
  end.

(** The part of [s] after the first occurrence of [c] (empty when there is
    none). *)
Fixpoint after (c : ascii) (s : string) : string :=
  match s with
  | EmptyString => EmptyString
  | String a s' => if decide (a = c) then s' else after c s'
  end.

End JsString.

(** ** React elements *)

(** The value of a JSX attribute. *)
Inductive attr : Type :=
  | AStr (s : string)
  | ABool (b : bool).

Section Component.

(** The link-rendering capability handed in by the caller.  [render] never
    calls it: it names it as the type of the element it returns. *)
Context {C : Type}.

(** What a JSX tag names: a host tag such as [i], or a component. *)
Inductive tag : Type :=
  | Host (t : string)
  | Comp (c : C).

(** A React element: its type, its props and its children. *)
#[warnings="-register-all"]
Inductive node : Type :=
  | Text (s : string)
  | Elem (ty : tag) (attrs : gmap string attr) (children : list node).

Definition node_type (n : node) : option tag :=
  match n with
  | Text _ => None
  | Elem ty _ _ => Some ty
  end.

Definition node_attrs (n : node) : gmap string attr :=
  match n with
  | Text _ => ∅
  | Elem _ a _ => a
  end.

Definition node_children (n : node) : list node :=
  match n with
  | Text _ => []
  | Elem _ _ ch => ch
  end.

(** [this.props] of a [GrafanaLink]. *)
Record Props : Type := mkProps {
  name : string;
  resource : string;
  conduitLink : C;
}.

(** The component instance, [this]. *)
Record GrafanaLink : Type := mkGrafanaLink {
  props : Props;
}.

(** The character reference [&nbsp;] (U+00A0), in UTF-8. *)
Definition nbsp : string := String "194"%char (String "160"%char EmptyString).

(** The template literal of the [to] attribute, as a function of the
    values interpolated into it. *)
Definition dashboard_path (res : string) (ns nm : option string) : string :=
  "/dashboard/db/conduit-" +:+ res +:+
  "?var-namespace=" +:+ JsString.to_string ns +:+
  "&var-" +:+ res +:+ "=" +:+ JsString.to_string nm.

(** [<i className="fa fa-external-link" />] *)
Definition external_link_icon : node :=
  Elem (Host "i") {[ "className" := AStr "fa fa-external-link" ]} [].

(** [GrafanaLink.prototype.render].  The local [name] of the source is
    [name'] here, the prop of that name being a projection. *)
Definition render (this : GrafanaLink) : node :=
  let ownerInfo := JsString.split "/"%char (name (props this)) in
  let namespace := ownerInfo !! 0 in
  let name' := ownerInfo !! 1 in
  Elem (Comp (conduitLink (props this)))
    (<["to" := AStr (dashboard_path (resource (props this)) namespace name')]>
     (<["deployment" := AStr "grafana"]>
     (<["targetBlank" := ABool true]> ∅)))
    [ Text (name (props this));
      Text (nbsp +:+ nbsp);
      external_link_icon ].

(** The values of the three locals of [render]. *)
Definition ownerInfo (this : GrafanaLink) : list string :=
  JsString.split "/"%char (name (props this)).

Definition namespace (this : GrafanaLink) : option string :=
  ownerInfo this !! 0.

Definition owner_name (this : GrafanaLink) : option string :=
  ownerInfo this !! 1.

(** The [to] prop of the rendered link. *)
Definition link_target (this : GrafanaLink) : option attr :=
  node_attrs (render this) !! "to".

End Component.

Arguments tag : clear implicits.
Arguments node : clear implicits.
Arguments Props : clear implicits.
Arguments GrafanaLink : clear implicits.

(** The component as its callers build it: an identifier, a resource type
    and a link capability. *)
Definition grafana_link {C} (id res : string) (link : C) : GrafanaLink C :=
  mkGrafanaLink (mkProps id res link).

(** ** The method in its world

    A JavaScript method runs against a world: the object its [this] refers
    to and everything else it can reach (the other fields of the component
    instance, module and global bindings, the document).  A [Method A] is
    given the world and returns a value together with the world it leaves
    behind, so that what a method reads and what it assigns to are both
    visible.  A JSX element is built as a value; [React.createElement] is
    not part of the repository. *)

Section Method.

Context {C Ambient : Type}.

Record World : Type := mkWorld {
  receiver : GrafanaLink C;
  ambient : Ambient;
}.

Definition Method (A : Type) : Type := World → A * World.

#[global] Instance method_ret : MRet Method := λ A a w, (a, w).

#[global] Instance method_bind : MBind Method :=
  λ A B k m w, let (a, w') := m w in k a w'.


(** The read of any state other than the props of the receiver. *)
Definition get_ambient : Method Ambient := λ w, (ambient w, w).

(** An assignment to any state other than the props of the receiver. *)
Definition set_ambient (a : Ambient) : Method unit :=
  λ w, ((), {| receiver := receiver w; ambient := a |}).


End Method.

Arguments World : clear implicits.
Arguments Method : clear implicits.

(** ** The identifier as the specification reads it

    The specification reads an identifier ["ns/name"] as a namespace, all
    that comes before the separator, and a name, all that comes after it. *)

(** Everything before the first separator. *)
Definition spec_namespace (id : string) : string := JsString.before "/" id.

(** Everything after the first separator. *)
Definition spec_name (id : string) : string := JsString.after "/" id.

(** ** The smoke-test manifest *)

Module Manifest.

(** An entry of [spec.template.spec.containers]. *)
Record container : Type := mkContainer {
  container_name : string;
  image : string;
  args : list string;
  containerPorts : list N;
}.

(** The [spec] of a [Deployment]. *)
Record deployment_spec : Type := mkDeploymentSpec {
  replicas : N;
  matchLabels : gmap string string;
  template_labels : gmap string string;
  containers : list container;
}.

(** An entry of the [spec.ports] of a [Service]. *)
Record service_port : Type := mkServicePort {
  port_name : string;
  port : N;
  targetPort : N;
}.

(** The [spec] of a [Service]; [service_type] is [None] where the document
    has no [type] key, which Kubernetes reads as a cluster-internal
    service. *)
Record service_spec : Type := mkServiceSpec {
  selector : gmap string string;
  service_type : option string;
  ports : list service_port;
}.

(** One document of the manifest: its [kind], [apiVersion],
    [metadata.name] and [spec]. *)
Inductive resource : Type :=
  | Deployment (apiVersion metadata_name : string) (spec : deployment_spec)
  | Service (apiVersion metadata_name : string) (spec : service_spec).

(** The four documents, in the order of the file. *)
Definition manifest : list resource :=
  [ Deployment "apps/v1beta1" "smoke-test-terminus"
      {| replicas := 1;
         matchLabels := {[ "app" := "smoke-test-terminus" ]};
         template_labels := {[ "app" := "smoke-test-terminus" ]};
         containers :=
           [ {| container_name := "http-to-grpc";
                image := "buoyantio/bb:v0.0.1";
                args := [ "terminus"; "--grpc-server-port"; "9090";
                          "--response-text"; "BANANA" ];
                containerPorts := [ 9090%N ] |} ] |};
    Service "v1" "smoke-test-terminus-svc"
      {| selector := {[ "app" := "smoke-test-terminus" ]};
         service_type := None;
         ports := [ {| port_name := "grpc"; port := 9090; targetPort := 9090 |} ] |};
    Deployment "apps/v1beta1" "smoke-test-gateway"
      {| replicas := 1;
         matchLabels := {[ "app" := "smoke-test-gateway" ]};
         template_labels := {[ "app" := "smoke-test-gateway" ]};
         containers :=
           [ {| container_name := "http-to-grpc";
                image := "buoyantio/bb:v0.0.1";
                args := [ "point-to-point-channel"; "--grpc-downstream-server";
                          "smoke-test-terminus-svc:9090"; "--h1-server-port"; "8080" ];
                containerPorts := [ 8080%N ] |} ] |};
    Service "v1" "smoke-test-gateway-svc"
      {| selector := {[ "app" := "smoke-test-gateway" ]};
         service_type := Some "LoadBalancer";
         ports := [ {| port_name := "http"; port := 8080; targetPort := 8080 |} ] |} ].

(** The workload definitions of a manifest, by name. *)
Fixpoint deployments (m : list resource) : list (string * deployment_spec) :=
  match m with
  | [] => []
  | Deployment _ n d :: m' => (n, d) :: deployments m'
  | Service _ _ _ :: m' => deployments m'
  end.

(** The service definitions of a manifest, by name. *)
Fixpoint services (m : list resource) : list (string * service_spec) :=
  match m with
  | [] => []
  | Deployment _ _ _ :: m' => services m'
  | Service _ n s :: m' => (n, s) :: services m'
  end.

(** A service is exposed outside the cluster through a load balancer. *)
Definition load_balanced (s : service_spec) : bool :=
  bool_decide (service_type s = Some "LoadBalancer").

(** The argument that follows the flag [flag] on a command line. *)
Fixpoint flag_value (flag : string) (argv : list string) : option string :=
  match argv with
  | a :: ((v :: _) as rest) =>
      if decide (a = flag) then Some v else flag_value flag rest
  | _ => None
  end.

(** The command lines of the containers of a workload. *)
Definition command_lines (d : deployment_spec) : list (list string) :=
  args <$> containers d.

(** A service routes to the pods of a workload: every label it selects on is
    a label of the pod template. *)
Definition selects (s : service_spec) (d : deployment_spec) : Prop :=
  selector s ⊆ template_labels d.

(** The addresses [name:port] under which a service is reached inside the
    cluster. *)
Definition addresses (n : string) (s : service_spec) : list string :=
  (λ p, n +:+ ":" +:+ pretty (port p)) <$> ports s.

End Manifest.

(** ** Measures on identifiers and arrays of parts *)

Module JsArray.

(** [parts.join(c)] for a one-character separator [c]. *)
Fixpoint join (c : ascii) (parts : list string) : string :=
  match parts with
  | [] => EmptyString
  | p :: rest =>
      match rest with
      | [] => p
      | _ :: _ => p +:+ String c (join c rest)
      end
  end.

End JsArray.

(** The number of occurrences of the character [c] in [s]. *)
Fixpoint count_char (c : ascii) (s : string) : nat :=
  match s with
  | EmptyString => 0
  | String a s' => (if decide (a = c) then 1 else 0) + count_char c s'
  end.

(** The identifier as the query parameters of the rendered URL spell it:
    the interpolated namespace, a separator, the interpolated name. *)
Definition url_identifier {C} (this : GrafanaLink C) : string :=
  JsString.to_string (namespace this) +:+ "/" +:+ JsString.to_string (owner_name this).

(** ** Routing in a manifest *)

Module Wiring.

Import Manifest.

#[global] Instance selects_dec (s : service_spec) (d : deployment_spec) :
  Decision (selects s d).
Proof. unfold selects. apply _. Defined.

(** The workloads of a manifest whose pods a service routes to. *)
Definition backends (m : list resource) (s : service_spec)
    : list (string * deployment_spec) :=
  filter (λ nd, selects s nd.2) (deployments m).

(** The ports the containers of a workload declare. *)
Definition declared_ports (d : deployment_spec) : list N :=
  containers d ≫= containerPorts.

End Wiring.

(** ** Facts about strings *)

Section StringFacts.

Import JsString.
Implicit Types (c a : ascii) (s t u : string).

Lemma string_app_cons a s t : String a s +:+ t = String a (s +:+ t).
Proof. reflexivity. Qed.

Lemma string_app_nil_l s : EmptyString +:+ s = s.
Proof. reflexivity. Qed.

Lemma string_app_assoc s t u : (s +:+ t) +:+ u = s +:+ t +:+ u.
Proof. induction s as [|a s IH]; [done|]. by rewrite !string_app_cons, IH. Qed.

Lemma string_length_app s t : String.length (s +:+ t) = String.length s + String.length t.
Proof. induction s as [|a s IH]; [done|]. rewrite string_app_cons. cbn. by rewrite IH. Qed.

Lemma string_app_nil_r s : s +:+ EmptyString = s.
Proof. induction s as [|a s IH]; [done|]. by rewrite string_app_cons, IH. Qed.

Lemma sep_app s t : s +:+ "/" +:+ t = s +:+ String "/" t.
Proof. reflexivity. Qed.

(** [split] on sample inputs, as [String.prototype.split] answers them. *)
Example split_examples :
  split "/" "default/api" = ["default"; "api"] ∧
  split "/" "a/b/c" = ["a"; "b"; "c"] ∧
  split "/" "api" = ["api"] ∧
  split "/" EmptyString = [EmptyString] ∧
  split "/" "/x/" = [EmptyString; "x"; EmptyString].
Proof. by split_and!. Qed.

Lemma split_lookup_0 c s : split c s !! 0 = Some (before c s).
Proof.
  induction s as [|a s IH]; cbn; [done|].
  case_decide; [done|].
  destruct (split c s) as [|seg segs]; simplify_eq/=; done.
Qed.

Lemma split_includes c s :
  includes c s = true → split c s = before c s :: split c (after c s).
Proof.
  induction s as [|a s IH]; cbn; [done|].
  case_decide; [done|]. intros Hs. by rewrite IH.
Qed.

Lemma split_no_sep c s : includes c s = false → split c s = [s].
Proof.
  induction s as [|a s IH]; cbn; [done|].
  case_decide; [done|]. intros Hs. by rewrite IH.
Qed.

Lemma before_after c s :
  includes c s = true → s = before c s +:+ String c (after c s).
Proof.
  induction s as [|a s IH]; cbn; [done|].
  case_decide as Ha; [by rewrite Ha|].
  intros Hs. rewrite string_app_cons. f_equal. by apply IH.
Qed.

Lemma includes_before c s : includes c (before c s) = false.
Proof.
  induction s as [|a s IH]; cbn; [done|].
  case_decide; [done|]. cbn. by rewrite decide_False.
Qed.

Lemma includes_app_sep c s t : includes c (s +:+ String c t) = true.
Proof.
  induction s as [|a s IH].
  - rewrite string_app_nil_l. cbn. by rewrite decide_True.
  - rewrite string_app_cons. cbn. by case_decide.
Qed.

Lemma before_app_sep c s t :
  includes c s = false → before c (s +:+ String c t) = s.
Proof.
  induction s as [|a s IH].
  - intros _. rewrite string_app_nil_l. cbn. by rewrite decide_True.
  - rewrite string_app_cons. cbn. case_decide; [done|]. intros Hs. by rewrite IH.
Qed.

Lemma after_app_sep c s t :
  includes c s = false → after c (s +:+ String c t) = t.
Proof.
  induction s as [|a s IH].
  - intros _. rewrite string_app_nil_l. cbn. by rewrite decide_True.
  - rewrite string_app_cons. cbn. case_decide; [done|]. intros Hs. by rewrite IH.
Qed.

Lemma before_no_sep c s : includes c s = false → before c s = s.
Proof.
  induction s as [|a s IH]; cbn; [done|].
  case_decide; [done|]. intros Hs. by rewrite IH.
Qed.

Lemma spec_parts s :
  includes "/" s = true → s = spec_namespace s +:+ "/" +:+ spec_name s.
Proof. intros Hs. rewrite sep_app. by apply before_after. Qed.

End StringFacts.

(** ** Further facts about splitting *)

Section SplitFacts.

Import JsString.
Implicit Types (c a : ascii) (s t u : string).

Lemma split_not_nil c s : split c s ≠ [].
Proof. intros Hs. pose proof (split_lookup_0 c s) as H0. by rewrite Hs in H0. Qed.

Lemma includes_app c s t : includes c (s +:+ t) = includes c s || includes c t.
Proof.
  induction s as [|a s IH]; [done|].
  rewrite string_app_cons. cbn. by case_decide.
Qed.

(** Splitting composes: the parts of [s], a separator, and the parts of
    [t]. *)
Lemma split_app_sep c s t : split c (s +:+ String c t) = split c s ++ split c t.
Proof.
  induction s as [|a s IH].
  - rewrite string_app_nil_l. cbn. by rewrite decide_True.
  - rewrite string_app_cons. cbn. case_decide; [by rewrite IH|].
    rewrite IH. pose proof (split_not_nil c s).
    by destruct (split c s).
Qed.

Lemma split_separator_free c s : Forall (λ seg, includes c seg = false) (split c s).
Proof.
  induction s as [|a s IH]; cbn.
  - by constructor.
  - case_decide; [by constructor|].
    destruct (split c s) as [|seg segs]; [by constructor; cbn; rewrite ?decide_False|].
    inversion_clear IH as [|?? Hseg Hsegs]. constructor; [|done].
    cbn. by rewrite decide_False.
Qed.

Lemma length_split c s : length (split c s) = S (count_char c s).
Proof.
  induction s as [|a s IH]; cbn; [done|].
  case_decide; cbn; [by rewrite IH|].
  pose proof (split_not_nil c s). by destruct (split c s).
Qed.

Lemma join_split c s : JsArray.join c (split c s) = s.
Proof.
  induction s as [|a s IH]; cbn; [done|].
  pose proof (split_not_nil c s) as Hne.
  case_decide as Ha.
  - destruct (split c s) as [|seg segs] eqn:Hs; [done|].
    cbn. cbn in IH. rewrite IH. by rewrite Ha.
  - destruct (split c s) as [|seg segs]; [done|].
    destruct segs as [|seg' segs]; cbn in *; by rewrite <-IH.
Qed.

Lemma count_char_includes c s : includes c s = true ↔ 0 < count_char c s.
Proof.
  induction s as [|a s IH]; cbn; [split; [done|lia]|].
  case_decide; [split; [lia|done]|]. by rewrite IH.
Qed.

Lemma count_char_after c s :
  includes c s = true → count_char c s = S (count_char c (after c s)).
Proof.
  induction s as [|a s IH]; cbn; [done|].
  case_decide; [done|]. intros Hs. by rewrite IH.
Qed.

Lemma includes_false_count c s : includes c s = false ↔ count_char c s = 0.
Proof.
  split.
  - intros Hs. destruct (count_char c s) eqn:Hc; [done|].
    assert (includes c s = true) by (apply count_char_includes; lia). congruence.
  - intros Hc. destruct (includes c s) eqn:Hs; [|done].
    apply count_char_includes in Hs. lia.
Qed.

End SplitFacts.

(** ** Facts about [render] *)

Section RenderFacts.

Context {C : Type}.
Implicit Types (this : GrafanaLink C) (id res ns nm : string) (link : C).

Lemma link_target_eq this :
  link_target this =
    Some (AStr (dashboard_path (resource (props this))
                  (namespace this) (owner_name this))).
Proof. unfold link_target, render. cbn [node_attrs]. by rewrite lookup_insert_eq. Qed.

Lemma namespace_eq this :
  namespace this = Some (JsString.before "/" (name (props this))).
Proof. apply split_lookup_0. Qed.

Lemma owner_name_sep this :
  JsString.includes "/" (name (props this)) = true →
  owner_name this =
    Some (JsString.before "/" (JsString.after "/" (name (props this)))).
Proof.
  intros Hid. unfold owner_name, ownerInfo.
  rewrite split_includes by done. apply split_lookup_0.
Qed.

Lemma owner_name_no_sep this :
  JsString.includes "/" (name (props this)) = false → owner_name this = None.
Proof. intros Hid. unfold owner_name, ownerInfo. by rewrite split_no_sep. Qed.

End RenderFacts.

(** ** Facts about methods

    Reads and assignments outside the props of the receiver are observable
    in the model: a method that performs one does not pass for pure. *)

Lemma get_ambient_observable :
  ∃ w1 w2 : World unit bool,
    receiver w1 = receiver w2 ∧ (get_ambient w1).1 ≠ (get_ambient w2).1.
Proof.
  exists (mkWorld (grafana_link "a/b" "deployment" ()) true),
         (mkWorld (grafana_link "a/b" "deployment" ()) false).
  by split.
Qed.

Lemma set_ambient_observable :
  ∃ w : World unit bool, (set_ambient true w).2 ≠ w.
Proof.
  exists (mkWorld (grafana_link "a/b" "deployment" ()) false).
  cbn. by intros [=].
Qed.

(** C1: for resource type "deployment" and identifier "default/api" the
    rendered link points at exactly
    "/dashboard/db/conduit-deployment?var-namespace=default&var-deployment=api",
    whatever the link capability is. *)
Theorem render_default_api {C : Type} (link : C) :
  link_target (grafana_link "default/api" "deployment" link) =
    Some (AStr "/dashboard/db/conduit-deployment?var-namespace=default&var-deployment=api").
Proof. rewrite link_target_eq. reflexivity. Qed.

(** C2: for a well-formed identifier "ns/name" (both parts non-empty and free
    of separators) and any resource type r, the rendered URL contains
    "var-namespace=ns" and "var-r=name". *)
Theorem render_well_formed {C : Type} (ns nm res : string) (link : C) :
  ns ≠ EmptyString → nm ≠ EmptyString →
  JsString.includes "/" ns = false → JsString.includes "/" nm = false →
  ∃ url,
    link_target (grafana_link (ns +:+ "/" +:+ nm) res link) = Some (AStr url) ∧
    JsString.substring_of ("var-namespace=" +:+ ns) url ∧
    JsString.substring_of ("var-" +:+ res +:+ "=" +:+ nm) url.
Proof.
  intros _ _ Hns Hnm. exists (dashboard_path res (Some ns) (Some nm)).
  split; [|split].
  - rewrite link_target_eq, namespace_eq, owner_name_sep; cbn [grafana_link props name resource];
      rewrite sep_app; [|apply includes_app_sep].
    by rewrite before_app_sep, after_app_sep, before_no_sep.
  - exists ("/dashboard/db/conduit-" +:+ res +:+ "?"),
      ("&var-" +:+ res +:+ "=" +:+ nm).
    unfold dashboard_path. cbn [JsString.to_string].
    by rewrite !string_app_assoc.
  - exists ("/dashboard/db/conduit-" +:+ res +:+ "?var-namespace=" +:+ ns +:+ "&"), EmptyString.
    unfold dashboard_path. cbn [JsString.to_string].
    by rewrite !string_app_assoc, string_app_nil_r.
Qed.

(** The theorem at the identifier "default/api". *)
Lemma render_well_formed_witness :
  ∃ url,
    link_target (grafana_link ("default" +:+ "/" +:+ "api") "deployment" ()) = Some (AStr url) ∧
    JsString.substring_of ("var-namespace=" +:+ "default") url ∧
    JsString.substring_of ("var-" +:+ "deployment" +:+ "=" +:+ "api") url.
Proof. apply (render_well_formed "default" "api" "deployment" ()); done. Defined.

(** C3, as the code has it: an identifier that contains a separator is split
    at every separator: the split has one part more than the identifier has
    separators, no part contains a separator, and the parts joined by the
    separator are the identifier.  The namespace is everything before the
    first separator; the name is what lies between the first separator and
    the next one (or the end of the identifier); both are embedded in the
    URL.  When the identifier contains exactly one separator the split has
    exactly two parts and the name is everything after the separator. *)
Theorem render_split_at_separators {C : Type} (id res : string) (link : C) :
  JsString.includes "/" id = true →
  length (ownerInfo (grafana_link id res link)) = S (count_char "/" id) ∧
  Forall (λ seg, JsString.includes "/" seg = false)
         (ownerInfo (grafana_link id res link)) ∧
  JsArray.join "/" (ownerInfo (grafana_link id res link)) = id ∧
  id = spec_namespace id +:+ "/" +:+ spec_name id ∧
  JsString.includes "/" (spec_namespace id) = false ∧
  namespace (grafana_link id res link) = Some (spec_namespace id) ∧
  owner_name (grafana_link id res link) = Some (JsString.before "/" (spec_name id)) ∧
  link_target (grafana_link id res link) =
    Some (AStr (dashboard_path res (Some (spec_namespace id))
                  (Some (JsString.before "/" (spec_name id))))) ∧
  (JsString.includes "/" (spec_name id) = false →
     ownerInfo (grafana_link id res link) = [spec_namespace id; spec_name id] ∧
     owner_name (grafana_link id res link) = Some (spec_name id)).
Proof.
  intros Hid.
  assert (owner_name (grafana_link id res link)
          = Some (JsString.before "/" (spec_name id))) as Hnm
    by (by apply owner_name_sep).
  split_and!.
  - apply length_split.
  - apply split_separator_free.
  - apply join_split.
  - by apply spec_parts.
  - apply includes_before.
  - apply namespace_eq.
  - done.
  - by rewrite link_target_eq, namespace_eq, Hnm.
  - intros Hrest. split.
    + unfold ownerInfo. cbn [grafana_link props name].
      rewrite split_includes by done. by rewrite (split_no_sep _ (JsString.after _ _)).
    + rewrite Hnm. unfold spec_name in *. by rewrite before_no_sep.
Qed.

(** The theorem at the identifier "a/b/c": three parts, and the name is
    "b". *)
Lemma render_split_at_separators_witness :
  JsString.includes "/" "a/b/c" = true ∧
  length (ownerInfo (grafana_link "a/b/c" "deployment" ())) = 3 ∧
  owner_name (grafana_link "a/b/c" "deployment" ()) = Some "b".
Proof.
  split; [reflexivity|].
  pose proof (render_split_at_separators "a/b/c" "deployment" () eq_refl)
    as (Hlen & _ & _ & _ & _ & _ & Hnm & _).
  split; [exact Hlen|exact Hnm].
Defined.

(** C3, as the specification has it, at the identifier "a/b/c": the split
    has three parts, not two, and the name embedded in the URL is "b", not
    the "b/c" that follows the first separator. *)
Lemma render_split_in_two_counterexample :
  JsString.includes "/" "a/b/c" = true ∧
  ownerInfo (grafana_link "a/b/c" "deployment" ())
    ≠ [spec_namespace "a/b/c"; spec_name "a/b/c"] ∧
  owner_name (grafana_link "a/b/c" "deployment" ()) ≠ Some (spec_name "a/b/c") ∧
  link_target (grafana_link "a/b/c" "deployment" ())
    ≠ Some (AStr (dashboard_path "deployment" (Some (spec_namespace "a/b/c"))
                    (Some (spec_name "a/b/c")))).
Proof.
  split_and!; [reflexivity| | |]; try rewrite link_target_eq; vm_compute; discriminate.
Qed.

(** C4: whatever the identifier, the resource type and the link capability,
    the element [render] returns is an instance of the supplied capability
    whose [deployment] prop is "grafana" and whose [targetBlank] prop is
    [true]; its only other prop is [to]. *)
Theorem render_fixed_link_props {C : Type} (this : GrafanaLink C) :
  node_type (render this) = Some (Comp (conduitLink (props this))) ∧
  node_attrs (render this) !! "deployment" = Some (AStr "grafana") ∧
  node_attrs (render this) !! "targetBlank" = Some (ABool true) ∧
  dom (node_attrs (render this)) = {[ "to"; "deployment"; "targetBlank" ]}.
Proof.
  unfold render. cbn [node_type node_attrs]. split_and!.
  - done.
  - rewrite lookup_insert_ne by done. by rewrite lookup_insert_eq.
  - rewrite !lookup_insert_ne by done. by rewrite lookup_insert_eq.
  - rewrite !dom_insert_L, dom_empty_L. set_solver.
Qed.

(** C5: whatever the input, the children of the rendered link are the
    identifier exactly as the caller supplied it, two non-breaking spaces,
    and the external-link icon; how the identifier was split plays no part. *)
Theorem render_displays_identifier {C : Type} (this : GrafanaLink C) :
  node_children (render this) =
    [ Text (name (props this)); Text (nbsp +:+ nbsp); external_link_icon ] ∧
  node_type (external_link_icon (C:=C)) = Some (Host "i") ∧
  node_attrs (external_link_icon (C:=C)) !! "className"
    = Some (AStr "fa fa-external-link").
Proof. split_and!; [done|done|]. unfold external_link_icon. cbn. by rewrite lookup_singleton_eq. Qed.

(** C6: when the identifier contains a separator, index 0 and index 1 of the
    split are both defined, and the strings found there, not the
    placeholder for [undefined], are interpolated into the URL. *)
Theorem render_parts_defined {C : Type} (this : GrafanaLink C) :
  JsString.includes "/" (name (props this)) = true →
  2 ≤ length (ownerInfo this) ∧
  ∃ ns nm,
    namespace this = Some ns ∧ owner_name this = Some nm ∧
    link_target this =
      Some (AStr ("/dashboard/db/conduit-" +:+ resource (props this) +:+
                  "?var-namespace=" +:+ ns +:+
                  "&var-" +:+ resource (props this) +:+ "=" +:+ nm)).
Proof.
  intros Hid. split.
  - unfold ownerInfo. rewrite split_includes by done.
    pose proof (split_lookup_0 "/" (JsString.after "/" (name (props this)))) as H0.
    destruct (JsString.split _ (JsString.after _ _)); [done|]. cbn. lia.
  - eexists _, _. split_and!; [apply namespace_eq|by apply owner_name_sep|].
    by rewrite link_target_eq, namespace_eq, owner_name_sep.
Qed.

(** The theorem at the identifier "default/api". *)
Lemma render_parts_defined_witness :
  JsString.includes "/" "default/api" = true ∧
  2 ≤ length (ownerInfo (grafana_link "default/api" "deployment" ())).
Proof.
  split; [reflexivity|].
  apply (render_parts_defined (grafana_link "default/api" "deployment" ())).
  reflexivity.
Defined.



(** C8: the manifest holds exactly two workloads, a responder (the
    "terminus" command) and a forwarder (the "point-to-point-channel"
    command), and exactly two services.  Exactly one service, the one in
    front of the forwarder, is of type LoadBalancer; the other, in front of
    the responder, has no type and is cluster-internal.  The
    downstream-server argument of the forwarder is
    "smoke-test-terminus-svc:9090", the name and the port of the
    responder's service. *)
Theorem manifest_wiring :
  ∃ responder forwarder internal external,
    length Manifest.manifest = 4 ∧
    Manifest.deployments Manifest.manifest
      = [ ("smoke-test-terminus", responder); ("smoke-test-gateway", forwarder) ] ∧
    Manifest.services Manifest.manifest
      = [ ("smoke-test-terminus-svc", internal); ("smoke-test-gateway-svc", external) ] ∧
    Manifest.command_lines responder
      = [ [ "terminus"; "--grpc-server-port"; "9090"; "--response-text"; "BANANA" ] ] ∧
    (∃ argv, Manifest.command_lines forwarder = [ "point-to-point-channel" :: argv ] ∧
       Manifest.flag_value "--grpc-downstream-server" argv
         = Some "smoke-test-terminus-svc:9090") ∧
    Manifest.load_balanced external = true ∧
    Manifest.load_balanced internal = false ∧
    Manifest.service_type internal = None ∧
    Manifest.selects internal responder ∧
    Manifest.selects external forwarder ∧
    Manifest.addresses "smoke-test-terminus-svc" internal
      = [ "smoke-test-terminus-svc:9090" ].
Proof.
  do 4 eexists. split_and!; try reflexivity.
  - eexists. split; reflexivity.
  - by unfold Manifest.selects.
  - by unfold Manifest.selects.
Qed.

(** C9: for an identifier without a separator [render] still returns a link
    (an instance of the supplied capability); the namespace is the whole
    identifier, the name is [undefined], and the URL carries the identifier
    as the namespace value and the text "undefined" as the name value. *)
Theorem render_without_separator {C : Type} (id res : string) (link : C) :
  JsString.includes "/" id = false →
  node_type (render (grafana_link id res link)) = Some (Comp link) ∧
  namespace (grafana_link id res link) = Some id ∧
  owner_name (grafana_link id res link) = None ∧
  link_target (grafana_link id res link) =
    Some (AStr ("/dashboard/db/conduit-" +:+ res +:+
                "?var-namespace=" +:+ id +:+
                "&var-" +:+ res +:+ "=" +:+ "undefined")).
Proof.
  intros Hid.
  assert (namespace (grafana_link id res link) = Some id) as Hns.
  { rewrite namespace_eq. cbn [grafana_link props name]. by rewrite before_no_sep. }
  assert (owner_name (grafana_link id res link) = None) as Hnm
    by (by apply owner_name_no_sep).
  split_and!; [done..|]. by rewrite link_target_eq, Hns, Hnm.
Qed.

(** The theorem at the identifier "api". *)
Lemma render_without_separator_witness :
  JsString.includes "/" "api" = false ∧
  link_target (grafana_link "api" "deployment" ()) =
    Some (AStr "/dashboard/db/conduit-deployment?var-namespace=api&var-deployment=undefined").
Proof.
  split; [reflexivity|].
  apply (render_without_separator "api" "deployment" ()). reflexivity.
Defined.

(** C10: for an identifier with two or more separators, the URL carries as
    the name only what lies between the first and the second separator;
    what follows the second separator appears nowhere in the URL, while the
    first child of the link is still the whole identifier, which differs
    from the namespace/name pair of the URL. *)
Theorem render_drops_later_segments {C : Type} (id res : string) (link : C) :
  JsString.includes "/" id = true →
  JsString.includes "/" (spec_name id) = true →
  id = spec_namespace id +:+ "/" +:+ JsString.before "/" (spec_name id)
         +:+ "/" +:+ JsString.after "/" (spec_name id) ∧
  link_target (grafana_link id res link) =
    Some (AStr ("/dashboard/db/conduit-" +:+ res +:+
                "?var-namespace=" +:+ spec_namespace id +:+
                "&var-" +:+ res +:+ "=" +:+ JsString.before "/" (spec_name id))) ∧
  node_children (render (grafana_link id res link)) !! 0 = Some (Text id) ∧
  id ≠ spec_namespace id +:+ "/" +:+ JsString.before "/" (spec_name id).
Proof.
  intros Hid Hrest.
  assert (id = spec_namespace id +:+ "/" +:+ JsString.before "/" (spec_name id)
                 +:+ "/" +:+ JsString.after "/" (spec_name id)) as Hparts.
  { rewrite (spec_parts id) at 1 by done. do 2 f_equal.
    rewrite sep_app. by apply before_after. }
  split_and!; [done| |done|].
  - rewrite link_target_eq, namespace_eq, owner_name_sep by done. done.
  - intros Heq. rewrite Heq in Hparts at 1.
    apply (f_equal String.length) in Hparts.
    rewrite !string_length_app in Hparts. cbn in Hparts. lia.
Qed.

(** The theorem at the identifier "a/b/c": the segment "c" is dropped. *)
Lemma render_drops_later_segments_witness :
  JsString.includes "/" "a/b/c" = true ∧
  JsString.includes "/" (spec_name "a/b/c") = true ∧
  link_target (grafana_link "a/b/c" "deployment" ()) =
    Some (AStr "/dashboard/db/conduit-deployment?var-namespace=a&var-deployment=b") ∧
  node_children (render (grafana_link "a/b/c" "deployment" ())) !! 0 = Some (Text "a/b/c").
Proof.
  split; [reflexivity|]. split; [reflexivity|].
  pose proof (render_drops_later_segments "a/b/c" "deployment" () eq_refl eq_refl)
    as (_ & Hurl & Htext & _).
  split; [exact Hurl|exact Htext].
Defined.

(** ** Further properties of [render] *)

Section RenderSplitFacts.

Context {C : Type}.
Implicit Types (this : GrafanaLink C) (id res ns nm : string) (link : C).

(** The link target of an identifier made of two separator-free parts. *)
Lemma link_target_two_parts ns nm res link :
  JsString.includes "/" ns = false → JsString.includes "/" nm = false →
  link_target (grafana_link (ns +:+ "/" +:+ nm) res link)
    = Some (AStr (dashboard_path res (Some ns) (Some nm))).
Proof.
  intros Hns Hnm.
  rewrite link_target_eq, namespace_eq, owner_name_sep;
    cbn [grafana_link props name resource]; rewrite sep_app;
    [|apply includes_app_sep].
  by rewrite before_app_sep, after_app_sep, before_no_sep.
Qed.

Lemma amp_app (s t : string) : s +:+ "&var-" +:+ t = s +:+ String "&" ("var-" +:+ t).
Proof. reflexivity. Qed.

Lemma owner_name_is_Some this :
  is_Some (owner_name this) ↔ 0 < count_char "/" (name (props this)).
Proof.
  unfold owner_name, ownerInfo. rewrite lookup_lt_is_Some, length_split. lia.
Qed.

End RenderSplitFacts.

(** X1: whatever the identifier, no part of the split contains a separator,
    so neither value interpolated into the URL (the namespace, and the name
    or the text "undefined") contains a "/". *)
Theorem render_parts_separator_free {C : Type} (this : GrafanaLink C) :
  Forall (λ seg, JsString.includes "/" seg = false) (ownerInfo this) ∧
  JsString.includes "/" (JsString.to_string (namespace this)) = false ∧
  JsString.includes "/" (JsString.to_string (owner_name this)) = false.
Proof.
  pose proof (split_separator_free "/" (name (props this))) as Hall.
  split_and!; [done| |].
  - rewrite namespace_eq. apply includes_before.
  - unfold owner_name, ownerInfo.
    destruct (JsString.split "/" (name (props this)) !! 1) as [nm|] eqn:Hnm; [|done].
    by apply (Forall_lookup_1 _ _ _ _ Hall Hnm).
Qed.

(** X2: the split has one part more than the identifier has separators, so
    the name is defined exactly when the identifier contains a separator. *)
Theorem ownerInfo_length {C : Type} (this : GrafanaLink C) :
  length (ownerInfo this) = S (count_char "/" (name (props this))) ∧
  (is_Some (owner_name this) ↔ 0 < count_char "/" (name (props this))).
Proof. split; [apply length_split|apply owner_name_is_Some]. Qed.

(** X3: the split loses nothing: joining its parts with the separator gives
    the identifier back. *)
Theorem ownerInfo_join {C : Type} (this : GrafanaLink C) :
  JsArray.join "/" (ownerInfo this) = name (props this).
Proof. apply join_split. Qed.

(** X4: the namespace/name pair of the URL spells the identifier shown in
    the link exactly when the identifier contains exactly one separator. *)
Theorem url_identifier_agrees {C : Type} (this : GrafanaLink C) :
  url_identifier this = name (props this) ↔ count_char "/" (name (props this)) = 1.
Proof.
  unfold url_identifier.
  destruct (JsString.includes "/" (name (props this))) eqn:Hid.
  - rewrite namespace_eq, owner_name_sep by done. cbn [JsString.to_string].
    rewrite (count_char_after _ _ Hid).
    pose proof (spec_parts _ Hid) as Hparts. unfold spec_namespace, spec_name in Hparts.
    split.
    + intros Heq. rewrite Hparts in Heq at 3.
      do 2 apply (inj (String.append _)) in Heq.
      f_equal. apply includes_false_count. rewrite <-Heq. apply includes_before.
    + intros [= Hc]. apply includes_false_count in Hc.
      rewrite (before_no_sep _ _ Hc). by rewrite <-Hparts.
  - rewrite namespace_eq, owner_name_no_sep, before_no_sep by done.
    cbn [JsString.to_string]. apply includes_false_count in Hid. rewrite Hid.
    split; [|done]. intros Heq. apply (f_equal String.length) in Heq.
    rewrite !string_length_app in Heq. cbn in Heq. lia.
Qed.

(** X5: for one resource type, the URL determines the namespace and the
    name of identifiers whose namespace contains no "&": two such
    identifiers, each with a separator, that render to the same URL have the
    same namespace and the same name, and are equal when each contains
    exactly one separator. *)
Theorem link_target_injective {C : Type} (id1 id2 res : string) (link : C) :
  JsString.includes "/" id1 = true → JsString.includes "/" id2 = true →
  JsString.includes "&" (spec_namespace id1) = false →
  JsString.includes "&" (spec_namespace id2) = false →
  link_target (grafana_link id1 res link) = link_target (grafana_link id2 res link) →
  namespace (grafana_link id1 res link) = namespace (grafana_link id2 res link) ∧
  owner_name (grafana_link id1 res link) = owner_name (grafana_link id2 res link) ∧
  (count_char "/" id1 = 1 → count_char "/" id2 = 1 → id1 = id2).
Proof.
  intros Hid1 Hid2 Hamp1 Hamp2.
  rewrite !link_target_eq, !namespace_eq, !owner_name_sep by done.
  cbn [grafana_link props name resource]. unfold dashboard_path.
  cbn [JsString.to_string]. intros [= Heq].
  do 3 apply (inj (String.append _)) in Heq.
  rewrite !amp_app in Heq.
  pose proof (f_equal (JsString.before "&") Heq) as Hns.
  unfold spec_namespace in *. rewrite !before_app_sep in Hns by done.
  rewrite Hns in Heq. apply (inj (String.append _)) in Heq.
  injection Heq as Heq. do 3 apply (inj (String.append _)) in Heq.
  rewrite Hns, Heq. split_and!; [done..|].
  intros Hc1 Hc2.
  rewrite (count_char_after _ _ Hid1) in Hc1. rewrite (count_char_after _ _ Hid2) in Hc2.
  injection Hc1 as Hc1. injection Hc2 as Hc2.
  apply includes_false_count in Hc1, Hc2.
  rewrite (before_no_sep _ _ Hc1), (before_no_sep _ _ Hc2) in Heq.
  rewrite (before_after _ _ Hid1), (before_after _ _ Hid2). by rewrite Hns, Heq.
Qed.

(** The theorem at "default/api" and the same identifier built from its
    parts. *)
Lemma link_target_injective_witness :
  namespace (grafana_link "default/api" "deployment" ())
  = namespace (grafana_link ("default" +:+ "/api") "deployment" ()).
Proof.
  apply (link_target_injective "default/api" ("default" +:+ "/api") "deployment" ());
    reflexivity.
Defined.

(** X6: nothing is escaped.  An identifier whose namespace carries the text
    "&var-<resource>=..." renders to the same URL as a different identifier
    whose name carries it: the URL does not determine the identifier when a
    namespace may contain "&". *)
Theorem link_target_collision {C : Type} (ns nm x res : string) (link : C) :
  JsString.includes "/" ns = false → JsString.includes "/" nm = false →
  JsString.includes "/" x = false → JsString.includes "/" res = false →
  (ns +:+ "&var-" +:+ res +:+ "=" +:+ nm) +:+ "/" +:+ x
    ≠ ns +:+ "/" +:+ (nm +:+ "&var-" +:+ res +:+ "=" +:+ x) ∧
  link_target (grafana_link ((ns +:+ "&var-" +:+ res +:+ "=" +:+ nm) +:+ "/" +:+ x) res link)
    = link_target (grafana_link (ns +:+ "/" +:+ (nm +:+ "&var-" +:+ res +:+ "=" +:+ x)) res link).
Proof.
  intros Hns Hnm Hx Hres.
  assert (JsString.includes "/" (ns +:+ "&var-" +:+ res +:+ "=" +:+ nm) = false) as Hns'.
  { rewrite !includes_app, Hns, Hres, Hnm. reflexivity. }
  assert (JsString.includes "/" (nm +:+ "&var-" +:+ res +:+ "=" +:+ x) = false) as Hnm'.
  { rewrite !includes_app, Hnm, Hres, Hx. reflexivity. }
  split.
  - intros Heq. apply (f_equal (JsString.before "/")) in Heq.
    rewrite !sep_app, !before_app_sep in Heq by done.
    apply (f_equal String.length) in Heq.
    rewrite !string_length_app in Heq. cbn in Heq. lia.
  - rewrite !link_target_two_parts by done. unfold dashboard_path.
    cbn [JsString.to_string]. by rewrite !string_app_assoc.
Qed.

(** The theorem at namespace "a", name "b", rest "c": "a&var-deployment=b/c"
    and "a/b&var-deployment=c" share a URL. *)
Lemma link_target_collision_witness :
  link_target (grafana_link "a&var-deployment=b/c" "deployment" ())
  = link_target (grafana_link "a/b&var-deployment=c" "deployment" ()).
Proof.
  apply (link_target_collision "a" "b" "c" "deployment" ()); reflexivity.
Defined.

(** X7: a separator at either end of the identifier gives an empty part, not
    an undefined one: "ns/" renders with an empty name value and "/ns" with
    an empty namespace value. *)
Theorem render_empty_parts {C : Type} (ns res : string) (link : C) :
  JsString.includes "/" ns = false →
  owner_name (grafana_link (ns +:+ "/") res link) = Some EmptyString ∧
  link_target (grafana_link (ns +:+ "/") res link) =
    Some (AStr ("/dashboard/db/conduit-" +:+ res +:+
                "?var-namespace=" +:+ ns +:+ "&var-" +:+ res +:+ "=")) ∧
  namespace (grafana_link ("/" +:+ ns) res link) = Some EmptyString ∧
  link_target (grafana_link ("/" +:+ ns) res link) =
    Some (AStr ("/dashboard/db/conduit-" +:+ res +:+
                "?var-namespace=" +:+ "&var-" +:+ res +:+ "=" +:+ ns)).
Proof.
  intros Hns.
  pose proof (link_target_two_parts ns EmptyString res link Hns eq_refl) as Hend.
  pose proof (link_target_two_parts EmptyString ns res link eq_refl Hns) as Hstart.
  split_and!.
  - rewrite owner_name_sep; cbn [grafana_link props name];
      [|apply includes_app_sep]. by rewrite after_app_sep.
  - etrans; [exact Hend|]. unfold dashboard_path. cbn [JsString.to_string].
    by rewrite string_app_nil_r.
  - by rewrite namespace_eq.
  - exact Hstart.
Qed.

(** The theorem at the namespace "default". *)
Lemma render_empty_parts_witness :
  owner_name (grafana_link ("default" +:+ "/") "deployment" ()) = Some EmptyString.
Proof. apply (render_empty_parts "default" "deployment" ()). reflexivity. Defined.

(** X8: every service of the manifest routes to exactly one of its
    workloads, and each target port of the service is a port a container of
    that workload declares. *)
Theorem manifest_services_backed :
  Forall (λ ns, ∃ dn d,
            Wiring.backends Manifest.manifest ns.2 = [(dn, d)] ∧
            Forall (λ p, Manifest.targetPort p ∈ Wiring.declared_ports d)
                   (Manifest.ports ns.2))
         (Manifest.services Manifest.manifest).
Proof.
  unfold Manifest.manifest. cbn [Manifest.services].
  repeat constructor; do 2 eexists; (split; [reflexivity|]);
    repeat constructor.
Qed.

(** X9: every workload of the manifest selects the pods of its own template,
    and every port a container declares is passed to the server on its
    command line. *)
Theorem manifest_workloads_consistent :
  Forall (λ nd,
            Manifest.matchLabels nd.2 = Manifest.template_labels nd.2 ∧
            Forall (λ c, Forall (λ p, pretty p ∈ Manifest.args c)
                                (Manifest.containerPorts c))
                   (Manifest.containers nd.2))
         (Manifest.deployments Manifest.manifest).
Proof.
  unfold Manifest.manifest. cbn [Manifest.deployments].
  repeat constructor; cbn [Manifest.args snd];
    change (pretty 9090%N) with "9090"; change (pretty 8080%N) with "8080";
    set_solver.
Qed.
